(** * The record service of [server.py]

    A shallow embedding of the FastAPI application that the notebook
    [api_integration_pipeline.ipynb] writes to [server.py]: the in-memory
    dictionary [library], the request model [UserIn] and the three route
    handlers [healthcheck], [get_user] and [create_user].

    Python integers are unbounded, so identifiers are [Z].  A Python [dict]
    with string keys is an insertion-ordered association list; the store
    itself, a [dict] keyed by integers, is a [gmap Z]. *)

From stdpp Require Import base numbers strings list gmap fin_maps.

Local Open Scope Z_scope.

(** ** Python values and dictionaries *)

(** The values that occur in the dictionaries of [server.py]. *)
Inductive pyval : Type :=
  | PyInt (n : Z)
  | PyStr (s : string).

Global Instance pyval_eq_dec : EqDecision pyval.
Proof. solve_decision. Defined.

(** A [dict] with string keys, in insertion order. *)
Abbreviation pydict := (list (string * pyval)).

(** [d.get(k)] *)
Fixpoint dict_get (k : string) (d : pydict) : option pyval :=
  match d with
  | [] => None
  | (k', v) :: d' => if decide (k = k') then Some v else dict_get k d'
  end.

(** [d[k] = v]: an existing key keeps its position, a new key goes last. *)
Fixpoint dict_set (k : string) (v : pyval) (d : pydict) : pydict :=
  match d with
  | [] => [(k, v)]
  | (k', v') :: d' =>
      if decide (k = k') then (k', v) :: d' else (k', v') :: dict_set k v d'
  end.

(** [{**d, **e}]: the items of [e] are written into [d], left to right. *)
Definition dict_update (d e : pydict) : pydict :=
  foldl (λ acc kv, dict_set kv.1 kv.2 acc) d e.

(** [bool(d)]: a dictionary is true exactly when it has an item. *)
Definition dict_bool (d : pydict) : bool :=
  match d with
  | [] => false
  | _ :: _ => true
  end.

(** ** The request model

    [class UserIn(BaseModel)] declares three fields of type [str]. *)
Record UserIn : Type := mkUserIn {
  name : string;
  date : string;
  service : string
}.

(** [user.dict()]: the fields in declaration order. *)
Definition UserIn_dict (user : UserIn) : pydict :=
  [("name", PyStr (name user));
   ("date", PyStr (date user));
   ("service", PyStr (service user))].

(** ** The store *)

(** The module-level [library], as [server.py] initialises it. *)
Definition library : gmap Z pydict :=
  {[ 111 := [("name", PyStr "Alice");
             ("date", PyStr "2025-04-25");
             ("service", PyStr "DemoService")] ]}.

(** ** Handlers: state over [library], with exceptions *)

(** The exceptions a handler of [server.py] can raise: the explicit
    [HTTPException] of [get_user], and the [ValueError] of the builtin
    [max] on an empty iterable. *)
Inductive exn : Type :=
  | HTTPException (status_code : Z) (detail : string)
  | ValueError.

Inductive result (A : Type) : Type :=
  | Ok (a : A)
  | Raise (e : exn).
Arguments Ok {A} a.
Arguments Raise {A} e.

(** A handler reads and writes the global [library] and either returns
    or raises. *)
Definition handler (A : Type) : Type :=
  gmap Z pydict → result A * gmap Z pydict.

Global Instance handler_ret : MRet handler := λ A a s, (Ok a, s).

Global Instance handler_bind : MBind handler := λ A B f m s,
  match m s with
  | (Ok a, s') => f a s'
  | (Raise e, s') => (Raise e, s')
  end.

(** [raise e] *)
Definition raise {A : Type} (e : exn) : handler A := λ s, (Raise e, s).

(** [library.get(userid)]: [None] when the key is absent. *)
Definition library_get (userid : Z) : handler (option pydict) :=
  λ s, (Ok (s !! userid), s).

(** [library.keys()] *)
Definition library_keys : handler (list Z) :=
  λ s, (Ok (map_to_list s).*1, s).

(** [library[k] = d] *)
Definition library_setitem (k : Z) (d : pydict) : handler () :=
  λ s, (Ok (), <[k := d]> s).

(** The loop of the builtin [max]: the running maximum is replaced by an
    item only when the item is greater. *)
Definition max_step (m x : Z) : Z := if decide (m < x) then x else m.

(** [max(iterable)]: [ValueError] on an empty iterable. *)
Definition py_max (l : list Z) : handler Z :=
  match l with
  | [] => raise ValueError
  | x :: l' => mret (foldl max_step x l')
  end.

(** [GET /] *)
Definition healthcheck : handler pydict :=
  mret [("status", PyStr "healthy")].

(** [GET /user/{userid}]: [not user] holds for [None] and for an empty
    dictionary. *)
Definition get_user (userid : Z) : handler pydict :=
  user ← library_get userid;
  match user with
  | None => raise (HTTPException 404 "User not found")
  | Some d =>
      if negb (dict_bool d) then raise (HTTPException 404 "User not found")
      else mret d
  end.

(** [POST /user] *)
Definition create_user (user : UserIn) : handler pydict :=
  ks ← library_keys;
  m ← py_max ks;
  let new_id := m + 1 in
  _ ← library_setitem new_id (UserIn_dict user);
  mret (dict_update [("id", PyInt new_id)] (UserIn_dict user)).

(** ** The HTTP surface

    FastAPI serialises the dictionary a handler returns as the JSON body
    of a [200] response, turns an [HTTPException] into a response with its
    [status_code] and the body [{"detail": detail}], and answers any other
    exception with [500] and the plain text [Internal Server Error]. *)
Inductive content : Type :=
  | Json (d : pydict)
  | Text (t : string).

Record response : Type := mkResponse {
  status : Z;
  body : content
}.

Definition respond (r : result pydict) : response :=
  match r with
  | Ok d => mkResponse 200 (Json d)
  | Raise (HTTPException status_code detail) =>
      mkResponse status_code (Json [("detail", PyStr detail)])
  | Raise ValueError => mkResponse 500 (Text "Internal Server Error")
  end.

(** The requests the three routes accept: the path parameter of
    [GET /user/{userid}] is declared [int], the body of [POST /user] is a
    [UserIn]. *)
Inductive request : Type :=
  | GET_root
  | GET_user (userid : Z)
  | POST_user (user : UserIn).

Definition route (r : request) : handler pydict :=
  match r with
  | GET_root => healthcheck
  | GET_user userid => get_user userid
  | POST_user user => create_user user
  end.

(** One request served on the store [s]: the response and the store
    afterwards. *)
Definition serve (r : request) (s : gmap Z pydict) : response * gmap Z pydict :=
  let '(res, s') := route r s in (respond res, s').

(** The store after a sequence of requests, served one after the other. *)
Definition run (rs : list request) (s : gmap Z pydict) : gmap Z pydict :=
  foldl (λ s r, (serve r s).2) s rs.

(** The responses of a sequence of requests, in order. *)
Fixpoint responses (rs : list request) (s : gmap Z pydict) : list response :=
  match rs with
  | [] => []
  | r :: rs' => (serve r s).1 :: responses rs' (serve r s).2
  end.

(** Sample payloads. *)
Definition alice : pydict :=
  [("name", PyStr "Alice"); ("date", PyStr "2025-04-25");
   ("service", PyStr "DemoService")].

Definition bob : UserIn := mkUserIn "Bob" "2025-01-01" "X".

Definition anonymous : UserIn := mkUserIn "" "2025-01-01" "".

(** A record of the store: a dictionary with exactly the three text
    fields of [UserIn], in declaration order. *)
Definition is_record (d : pydict) : Prop :=
  ∃ user : UserIn, d = UserIn_dict user.

(** The ids returned by a sequence of creates, each served to completion
    before the next. *)
Fixpoint created_ids (users : list UserIn) (s : gmap Z pydict) : list Z :=
  match users with
  | [] => []
  | user :: users' =>
      match create_user user s with
      | (Ok d, s') =>
          match dict_get "id" d with
          | Some (PyInt new_id) => new_id :: created_ids users' s'
          | _ => created_ids users' s'
          end
      | (Raise _, s') => created_ids users' s'
      end
  end.

(** A record whose [name] and [service] are both non-empty. *)
Definition named_record (d : pydict) : Prop :=
  ∃ user : UserIn, d = UserIn_dict user ∧ name user ≠ "" ∧ service user ≠ "".

(** The round trip on the store [s] with the id echoed by the fetch:
    [POST /user] with [bob] returns normally with some id, and
    [GET /user/<id>] then returns the three fields of [bob] and that id. *)
Definition roundtrip_with_id (s : gmap Z pydict) : Prop :=
  ∃ (new_id : Z) (created fetched : pydict) (s' s'' : gmap Z pydict),
    create_user bob s = (Ok created, s') ∧
    dict_get "id" created = Some (PyInt new_id) ∧
    get_user new_id s' = (Ok fetched, s'') ∧
    dict_get "name" fetched = Some (PyStr "Bob") ∧
    dict_get "date" fetched = Some (PyStr "2025-01-01") ∧
    dict_get "service" fetched = Some (PyStr "X") ∧
    dict_get "id" fetched = Some (PyInt new_id).

(** The requests routed to [create_user]. *)
Definition is_POST (r : request) : bool :=
  match r with
  | POST_user _ => true
  | GET_root | GET_user _ => false
  end.

(** How many requests of a sequence are creates. *)
Definition count_POST (rs : list request) : nat :=
  length (filter (λ r, is_POST r) rs).

(** * Properties *)

(** ** The builtin [max] *)

Lemma foldl_max_step_ge (l : list Z) (x : Z) : x ≤ foldl max_step x l.
Proof.
  revert x. induction l as [|y l IH]; intros x; simpl; [lia|].
  etrans; [|apply IH]. unfold max_step. case_decide; lia.
Qed.

Lemma foldl_max_step_upper (l : list Z) (x k : Z) :
  k ∈ x :: l → k ≤ foldl max_step x l.
Proof.
  revert x. induction l as [|y l IH]; intros x Hk; simpl.
  - apply list_elem_of_singleton in Hk. lia.
  - apply elem_of_cons in Hk as [->|Hk].
    + etrans; [|apply foldl_max_step_ge]. unfold max_step. case_decide; lia.
    + apply elem_of_cons in Hk as [->|Hk].
      * etrans; [|apply foldl_max_step_ge]. unfold max_step. case_decide; lia.
      * apply IH. by right.
Qed.

Lemma foldl_max_step_elem (l : list Z) (x : Z) : foldl max_step x l ∈ x :: l.
Proof.
  revert x. induction l as [|y l IH]; intros x; simpl; [left|].
  specialize (IH (max_step x y)). unfold max_step in *.
  case_decide.
  - by right.
  - apply elem_of_cons in IH as [->|IH]; [left|right; by right].
Qed.

(** The keys [library.keys()] iterates over are the domain of the store. *)
Lemma elem_of_keys (s : gmap Z pydict) (k : Z) :
  k ∈ (map_to_list s).*1 ↔ k ∈ dom s.
Proof.
  rewrite elem_of_dom, list_elem_of_fmap. split.
  - intros [[k' d] [-> Hkd]]. apply elem_of_map_to_list in Hkd. by exists d.
  - intros [d Hd]. exists (k, d). split; [done|]. by apply elem_of_map_to_list.
Qed.

Lemma keys_nil (s : gmap Z pydict) : (map_to_list s).*1 = [] → s = ∅.
Proof. intros H. apply fmap_nil_inv in H. by apply map_to_list_empty_iff. Qed.

(** On a store with a key, [create_user] returns normally: the new id is
    the successor of the greatest key. *)
Lemma create_user_nonempty (s : gmap Z pydict) (user : UserIn) :
  s ≠ ∅ →
  ∃ m : Z,
    m ∈ dom s ∧ (∀ k, k ∈ dom s → k ≤ m) ∧
    create_user user s =
      (Ok (("id", PyInt (m + 1)) :: UserIn_dict user),
       <[m + 1 := UserIn_dict user]> s).
Proof.
  intros Hne. unfold create_user, mbind, handler_bind, library_keys. simpl.
  destruct ((map_to_list s).*1) as [|x l] eqn:Hks.
  { by apply keys_nil in Hks. }
  exists (foldl max_step x l). split_and!.
  - apply elem_of_keys. rewrite Hks. apply foldl_max_step_elem.
  - intros k Hk. apply elem_of_keys in Hk. rewrite Hks in Hk.
    by apply foldl_max_step_upper.
  - reflexivity.
Qed.

Lemma create_user_empty (user : UserIn) :
  create_user user ∅ = (Raise ValueError, ∅).
Proof. reflexivity. Qed.

(** ** Single requests *)

Lemma library_nonempty : library ≠ ∅.
Proof. apply map_non_empty_singleton. Qed.

Lemma serve_GET_root (s : gmap Z pydict) :
  serve GET_root s = (mkResponse 200 (Json [("status", PyStr "healthy")]), s).
Proof. reflexivity. Qed.

Lemma get_user_absent (s : gmap Z pydict) (userid : Z) :
  s !! userid = None →
  get_user userid s = (Raise (HTTPException 404 "User not found"), s).
Proof.
  intros H. unfold get_user, mbind, handler_bind, library_get. by rewrite H.
Qed.

Lemma get_user_present (s : gmap Z pydict) (userid : Z) (d : pydict) :
  s !! userid = Some d → d ≠ [] → get_user userid s = (Ok d, s).
Proof.
  intros H Hd. unfold get_user, mbind, handler_bind, library_get. rewrite H.
  by destruct d.
Qed.

(** No handler removes a key: a request leaves the store as it is or
    inserts one record. *)
Lemma serve_store (r : request) (s : gmap Z pydict) :
  (serve r s).2 = s ∨
  ∃ (k : Z) (user : UserIn), (serve r s).2 = <[k := UserIn_dict user]> s.
Proof.
  destruct r as [|userid|user].
  - by left.
  - left. unfold serve, route.
    destruct (s !! userid) as [d|] eqn:Hd.
    + destruct d as [|kv d].
      * unfold get_user, mbind, handler_bind, library_get. by rewrite Hd.
      * by rewrite (get_user_present s userid (kv :: d)).
    + by rewrite get_user_absent.
  - destruct (decide (s = ∅)) as [->|Hne].
    + by left.
    + right. destruct (create_user_nonempty s user Hne) as (m & _ & _ & Hc).
      exists (m + 1), user. unfold serve, route. by rewrite Hc.
Qed.

(** ** Invariants of the reachable stores *)

Lemma run_invariant (P : gmap Z pydict → Prop) (s0 : gmap Z pydict) :
  P s0 → (∀ s r, P s → P (serve r s).2) → ∀ rs, P (run rs s0).
Proof.
  intros H0 Hstep rs. revert s0 H0.
  induction rs as [|r rs IH]; intros s0 H0; simpl; [done|].
  apply IH, Hstep, H0.
Qed.

Lemma run_records (rs : list request) :
  map_Forall (λ _ d, is_record d) (run rs library).
Proof.
  apply run_invariant.
  - apply map_Forall_singleton. by exists (mkUserIn "Alice" "2025-04-25" "DemoService").
  - intros s r Hs. destruct (serve_store r s) as [->|(k & user & ->)]; [done|].
    apply map_Forall_insert_2; [by exists user | done].
Qed.

Lemma run_nonempty (rs : list request) : run rs library ≠ ∅.
Proof.
  apply run_invariant.
  - apply library_nonempty.
  - intros s r Hs. destruct (serve_store r s) as [->|(k & user & ->)]; [done|].
    apply insert_non_empty.
Qed.

(** ** Create *)

(** C1. On every non-empty store, [create_user] takes the greatest key [m]
    of the store, inserts the record under [m + 1] and returns the record
    together with that id, as a [200] response; the id is strictly greater
    than every key the store held before the call. *)
Theorem create_user_fresh_id (s : gmap Z pydict) (user : UserIn) :
  s ≠ ∅ →
  ∃ m : Z,
    (m ∈ dom s ∧ ∀ k, k ∈ dom s → k ≤ m) ∧
    create_user user s =
      (Ok [("id", PyInt (m + 1)); ("name", PyStr (name user));
           ("date", PyStr (date user)); ("service", PyStr (service user))],
       <[m + 1 := UserIn_dict user]> s) ∧
    (serve (POST_user user) s).1 =
      mkResponse 200
        (Json [("id", PyInt (m + 1)); ("name", PyStr (name user));
               ("date", PyStr (date user)); ("service", PyStr (service user))]) ∧
    (∀ k, k ∈ dom s → k < m + 1).
Proof.
  intros Hne. destruct (create_user_nonempty s user Hne) as (m & Hm & Hub & Hc).
  exists m. split_and!; try done.
  - unfold serve, route. by rewrite Hc.
  - intros k Hk. specialize (Hub k Hk). lia.
Qed.

Lemma create_user_fresh_id_witness :
  library ≠ ∅ ∧
  ∃ m : Z,
    (m ∈ dom library ∧ ∀ k, k ∈ dom library → k ≤ m) ∧
    create_user bob library =
      (Ok [("id", PyInt (m + 1)); ("name", PyStr (name bob));
           ("date", PyStr (date bob)); ("service", PyStr (service bob))],
       <[m + 1 := UserIn_dict bob]> library) ∧
    (serve (POST_user bob) library).1 =
      mkResponse 200
        (Json [("id", PyInt (m + 1)); ("name", PyStr (name bob));
               ("date", PyStr (date bob)); ("service", PyStr (service bob))]) ∧
    (∀ k, k ∈ dom library → k < m + 1).
Proof.
  assert (Hne : library ≠ ∅).
  { intros H. apply (f_equal (lookup 111)) in H. vm_compute in H. discriminate. }
  split; [exact Hne | exact (create_user_fresh_id library bob Hne)].
Defined.

(** ** Get by id *)

(** C2. On every store the service can reach, and for every integer id,
    [get_user] answers [200] with the stored record, a dictionary with the
    fields name, date and service, exactly when the id is a key of the
    store, and answers [404] with the body [{"detail": "User not found"}]
    exactly when the id is not a key. *)
Theorem get_user_found_iff (rs : list request) (userid : Z) :
  let s := run rs library in
  (userid ∈ dom s ↔
     ∃ user : UserIn,
       s !! userid = Some (UserIn_dict user) ∧
       get_user userid s =
         (Ok [("name", PyStr (name user)); ("date", PyStr (date user));
              ("service", PyStr (service user))], s) ∧
       (serve (GET_user userid) s).1 =
         mkResponse 200
           (Json [("name", PyStr (name user)); ("date", PyStr (date user));
                  ("service", PyStr (service user))])) ∧
  (userid ∉ dom s ↔
     get_user userid s = (Raise (HTTPException 404 "User not found"), s) ∧
     (serve (GET_user userid) s).1 =
       mkResponse 404 (Json [("detail", PyStr "User not found")])).
Proof.
  intros s.
  assert (Hin : userid ∈ dom s →
    ∃ user : UserIn, s !! userid = Some (UserIn_dict user) ∧
      get_user userid s = (Ok (UserIn_dict user), s)).
  { intros [d Hd]%elem_of_dom.
    destruct (run_records rs userid d Hd) as [user ->].
    exists user. split; [done|]. by apply get_user_present. }
  assert (Hout : userid ∉ dom s →
    get_user userid s = (Raise (HTTPException 404 "User not found"), s)).
  { intros Hd%not_elem_of_dom. by apply get_user_absent. }
  split; split.
  - intros (user & Hl & Hg)%Hin. exists user. split_and!; try done.
    unfold serve, route. by rewrite Hg.
  - intros (user & Hl & _). apply elem_of_dom. by eexists.
  - intros Hg%Hout. split; [done|]. unfold serve, route. by rewrite Hg.
  - intros [Hg _] (user & _ & Hg')%Hin. congruence.
Qed.

(** ** Round trip *)

(** C3, as stated, fails on the seeded store: the fetch returns the stored
    dictionary, which has no [id] item. *)
Lemma roundtrip_with_id_fails : ¬ roundtrip_with_id library.
Proof.
  intros (new_id & created & fetched & s' & s'' & Hc & Hid & Hg & _ & _ & _ & Hfid).
  vm_compute in Hc. injection Hc as <- <-.
  vm_compute in Hid. injection Hid as <-.
  vm_compute in Hg. injection Hg as <- <-.
  vm_compute in Hfid. discriminate.
Qed.

(** C3, amended. On every non-empty store, creating [bob] returns the
    three fields and the new id, and fetching that id then succeeds with
    exactly the three fields name, date, service of [bob]; the fetched
    dictionary has no [id] item. *)
Theorem roundtrip_create_get (s : gmap Z pydict) :
  s ≠ ∅ →
  ∃ (new_id : Z) (s' : gmap Z pydict),
    create_user bob s =
      (Ok [("id", PyInt new_id); ("name", PyStr "Bob");
           ("date", PyStr "2025-01-01"); ("service", PyStr "X")], s') ∧
    get_user new_id s' =
      (Ok [("name", PyStr "Bob"); ("date", PyStr "2025-01-01");
           ("service", PyStr "X")], s') ∧
    (serve (GET_user new_id) s').1 =
      mkResponse 200
        (Json [("name", PyStr "Bob"); ("date", PyStr "2025-01-01");
               ("service", PyStr "X")]) ∧
    dict_get "id" [("name", PyStr "Bob"); ("date", PyStr "2025-01-01");
                   ("service", PyStr "X")] = None.
Proof.
  intros Hne. destruct (create_user_nonempty s bob Hne) as (m & _ & _ & Hc).
  exists (m + 1), (<[m + 1 := UserIn_dict bob]> s).
  assert (Hg : get_user (m + 1) (<[m + 1 := UserIn_dict bob]> s) =
               (Ok (UserIn_dict bob), <[m + 1 := UserIn_dict bob]> s)).
  { apply get_user_present; [apply lookup_insert_eq | done]. }
  split_and!; try done.
  unfold serve, route. by rewrite Hg.
Qed.

Lemma roundtrip_create_get_witness :
  library ≠ ∅ ∧
  ∃ (new_id : Z) (s' : gmap Z pydict),
    create_user bob library =
      (Ok [("id", PyInt new_id); ("name", PyStr "Bob");
           ("date", PyStr "2025-01-01"); ("service", PyStr "X")], s') ∧
    get_user new_id s' =
      (Ok [("name", PyStr "Bob"); ("date", PyStr "2025-01-01");
           ("service", PyStr "X")], s') ∧
    (serve (GET_user new_id) s').1 =
      mkResponse 200
        (Json [("name", PyStr "Bob"); ("date", PyStr "2025-01-01");
               ("service", PyStr "X")]) ∧
    dict_get "id" [("name", PyStr "Bob"); ("date", PyStr "2025-01-01");
                   ("service", PyStr "X")] = None.
Proof.
  assert (Hne : library ≠ ∅).
  { intros H. apply (f_equal (lookup 111)) in H. vm_compute in H. discriminate. }
  split; [exact Hne | exact (roundtrip_create_get library Hne)].
Defined.

(** ** The seeded store *)

(** C4. At startup the store holds exactly one record, keyed by [111]:
    name Alice, date 2025-04-25, service DemoService; [GET /user/111] on
    that store returns this record. *)
Theorem library_seed :
  map_to_list library =
    [(111, [("name", PyStr "Alice"); ("date", PyStr "2025-04-25");
            ("service", PyStr "DemoService")])] ∧
  size library = 1%nat ∧
  get_user 111 library =
    (Ok [("name", PyStr "Alice"); ("date", PyStr "2025-04-25");
         ("service", PyStr "DemoService")], library) ∧
  (serve (GET_user 111) library).1 =
    mkResponse 200
      (Json [("name", PyStr "Alice"); ("date", PyStr "2025-04-25");
             ("service", PyStr "DemoService")]).
Proof.
  split_and!.
  - apply map_to_list_singleton.
  - apply map_size_singleton.
  - apply get_user_present; [apply lookup_singleton_eq | done].
  - unfold serve, route.
    by rewrite (get_user_present library 111 alice); [|apply lookup_singleton_eq|].
Qed.

(** ** Health check *)

(** C5. On every store, [healthcheck] returns normally with the payload
    [{"status": "healthy"}], served as a [200] response; the response is
    the same on any two stores. *)
Theorem healthcheck_fixed (s : gmap Z pydict) :
  (healthcheck s).1 = Ok [("status", PyStr "healthy")] ∧
  (serve GET_root s).1 = mkResponse 200 (Json [("status", PyStr "healthy")]) ∧
  (∀ s' : gmap Z pydict, (serve GET_root s').1 = (serve GET_root s).1).
Proof. by split_and!. Qed.

(** ** Frame *)

(** C6. On every store and for every id, present or absent, the health
    check and get-by-id leave the store as it was; a request that changes
    the store is a create. *)
Theorem reads_leave_store (s : gmap Z pydict) (userid : Z) :
  (healthcheck s).2 = s ∧
  (get_user userid s).2 = s ∧
  (serve GET_root s).2 = s ∧
  (serve (GET_user userid) s).2 = s ∧
  (∀ r : request, (serve r s).2 ≠ s → ∃ user : UserIn, r = POST_user user).
Proof.
  assert (Hget : ∀ i, (get_user i s).2 = s).
  { intros i. unfold get_user, mbind, handler_bind, library_get.
    destruct (s !! i) as [[|kv d]|]; reflexivity. }
  assert (Hserve : ∀ i, (serve (GET_user i) s).2 = s).
  { intros i. specialize (Hget i). unfold serve, route.
    by destruct (get_user i s). }
  split_and!; try done.
  intros [|i|user] Hr.
  - by destruct Hr.
  - by destruct Hr.
  - by exists user.
Qed.

(** ** Field contents *)

(** C7, as stated, fails: on the seeded store a create whose name and
    service are empty strings is answered [200], and the store then holds
    a record with an empty name and an empty service. *)
Lemma empty_name_accepted :
  (serve (POST_user anonymous) library).1 =
    mkResponse 200
      (Json [("id", PyInt 112); ("name", PyStr "");
             ("date", PyStr "2025-01-01"); ("service", PyStr "")]) ∧
  run [POST_user anonymous] library !! 112 =
    Some [("name", PyStr ""); ("date", PyStr "2025-01-01");
          ("service", PyStr "")] ∧
  ¬ map_Forall (λ _ d, named_record d) (run [POST_user anonymous] library).
Proof.
  assert (Hl : run [POST_user anonymous] library !! 112 =
               Some (UserIn_dict anonymous)) by (vm_compute; reflexivity).
  split_and!.
  - vm_compute. reflexivity.
  - exact Hl.
  - intros Hall. destruct (Hall 112 _ Hl) as (user & Hd & Hn & _).
    apply Hn. unfold UserIn_dict in Hd. simpl in Hd. congruence.
Qed.

(** C7, amended. Every record held in a store the service can reach is a
    dictionary with exactly the three text fields name, date and service,
    and no request breaks this; on such a store create accepts every
    payload of three text fields, whatever the strings are, and stores it
    unchanged. *)
Theorem store_holds_records (rs : list request) :
  let s := run rs library in
  (∀ (k : Z) (d : pydict), s !! k = Some d →
     ∃ n dt sv : string,
       d = [("name", PyStr n); ("date", PyStr dt); ("service", PyStr sv)]) ∧
  (∀ user : UserIn, ∃ new_id : Z,
     (serve (POST_user user) s).1 =
       mkResponse 200
         (Json [("id", PyInt new_id); ("name", PyStr (name user));
                ("date", PyStr (date user));
                ("service", PyStr (service user))]) ∧
     (serve (POST_user user) s).2 !! new_id =
       Some [("name", PyStr (name user)); ("date", PyStr (date user));
             ("service", PyStr (service user))]).
Proof.
  intros s. split.
  - intros k d Hd. destruct (run_records rs k d Hd) as [[n dt sv] ->].
    by exists n, dt, sv.
  - intros user.
    destruct (create_user_nonempty s user (run_nonempty rs)) as (m & _ & _ & Hc).
    exists (m + 1). unfold serve, route. rewrite Hc. simpl.
    split; [done|]. apply lookup_insert_eq.
Qed.

(** ** Reachable stores are never empty *)

Lemma serve_keeps_records (r : request) (s : gmap Z pydict) (k : Z) (d : pydict) :
  s !! k = Some d → (serve r s).2 !! k = Some d.
Proof.
  intros Hk. destruct r as [|userid|user].
  - done.
  - unfold serve, route, get_user, mbind, handler_bind, library_get.
    by destruct (s !! userid) as [[|kv d']|].
  - assert (Hne : s ≠ ∅) by (intros ->; by rewrite lookup_empty in Hk).
    destruct (create_user_nonempty s user Hne) as (m & _ & Hub & Hc).
    unfold serve, route. rewrite Hc. simpl.
    rewrite lookup_insert_ne; [done|].
    intros <-. assert (m + 1 ≤ m); [|lia].
    apply Hub, elem_of_dom. by eexists.
Qed.

Lemma serve_status (r : request) (s : gmap Z pydict) :
  s ≠ ∅ → status (serve r s).1 = 200 ∨ status (serve r s).1 = 404.
Proof.
  intros Hne. destruct r as [|userid|user].
  - by left.
  - unfold serve, route, get_user, mbind, handler_bind, library_get.
    destruct (s !! userid) as [[|kv d']|]; simpl; auto.
  - destruct (create_user_nonempty s user Hne) as (m & _ & _ & Hc).
    unfold serve, route. rewrite Hc. by left.
Qed.

Lemma responses_status (rs : list request) (s : gmap Z pydict) :
  s ≠ ∅ → Forall (λ resp, status resp ≠ 500) (responses rs s).
Proof.
  revert s. induction rs as [|r rs IH]; intros s Hne; simpl.
  - constructor.
  - constructor.
    + destruct (serve_status r s Hne) as [-> | ->]; lia.
    + apply IH. destruct (serve_store r s) as [->|(k & user & ->)]; [done|].
      apply insert_non_empty.
Qed.

(** C10. From the seeded store, after any sequence of requests, the store
    is not empty and still holds every record it held before each request;
    hence [max] over its keys returns, [create_user] returns normally, and
    no request of the sequence was answered by the [500] of the
    empty-store [ValueError]. *)
Theorem store_never_empty (rs : list request) :
  let s := run rs library in
  s ≠ ∅ ∧
  (∀ (r : request) (k : Z) (d : pydict),
     s !! k = Some d → (serve r s).2 !! k = Some d) ∧
  (∃ m : Z, py_max (map_to_list s).*1 s = (Ok m, s)) ∧
  (∀ user : UserIn, ∃ (d : pydict) (s' : gmap Z pydict),
     create_user user s = (Ok d, s')) ∧
  Forall (λ resp, status resp ≠ 500) (responses rs library).
Proof.
  intros s. pose proof (run_nonempty rs) as Hne. fold s in Hne.
  split_and!.
  - exact Hne.
  - intros r k d. apply serve_keeps_records.
  - destruct ((map_to_list s).*1) as [|x l] eqn:Hks.
    + by apply keys_nil in Hks.
    + by eexists.
  - intros user. destruct (create_user_nonempty s user Hne) as (m & _ & _ & Hc).
    eauto.
  - apply responses_status, library_nonempty.
Qed.

(** ** Creates served one after the other *)

(** X2. Creates served one after the other on a non-empty store all
    return an id, the ids are pairwise distinct, and none of them was a
    key of the store before the first create. *)
Lemma created_ids_fresh (users : list UserIn) (s : gmap Z pydict) :
  s ≠ ∅ →
  length (created_ids users s) = length users ∧
  NoDup (created_ids users s) ∧
  (∀ k, k ∈ created_ids users s → k ∉ dom s).
Proof.
  revert s. induction users as [|user users IH]; intros s Hne; simpl.
  { split_and!; [done|constructor|]. intros k Hk. by apply elem_of_nil in Hk. }
  destruct (create_user_nonempty s user Hne) as (m & _ & Hub & Hc).
  rewrite Hc. simpl.
  destruct (IH (<[m + 1 := UserIn_dict user]> s)) as (Hlen & Hnd & Hfresh).
  { apply insert_non_empty. }
  split_and!.
  - by rewrite Hlen.
  - constructor; [|done]. intros Hin. apply (Hfresh _ Hin).
    rewrite dom_insert_L. apply elem_of_union_l. by apply elem_of_singleton.
  - intros k [->|Hk]%elem_of_cons.
    + intros Hd. specialize (Hub _ Hd). lia.
    + intros Hd. apply (Hfresh _ Hk). rewrite dom_insert_L.
      by apply elem_of_union_r.
Qed.

Lemma created_ids_fresh_witness :
  library ≠ ∅ ∧
  length (created_ids [bob; anonymous; bob] library) = 3%nat ∧
  NoDup (created_ids [bob; anonymous; bob] library) ∧
  (∀ k, k ∈ created_ids [bob; anonymous; bob] library → k ∉ dom library).
Proof.
  assert (Hne : library ≠ ∅).
  { intros H. apply (f_equal (lookup 111)) in H. vm_compute in H. discriminate. }
  split; [exact Hne | exact (created_ids_fresh [bob; anonymous; bob] library Hne)].
Defined.

(** X3. Creates served one after the other on a non-empty store return
    consecutive ids: with [m] the greatest key before the first create,
    the ids are [m + 1], [m + 2], ... in the order of the calls. *)
Theorem created_ids_consecutive (users : list UserIn) (s : gmap Z pydict) :
  s ≠ ∅ →
  ∃ m : Z,
    (m ∈ dom s ∧ ∀ k, k ∈ dom s → k ≤ m) ∧
    created_ids users s = seqZ (m + 1) (Z.of_nat (length users)).
Proof.
  intros Hne. destruct (create_user_nonempty s bob Hne) as (m & Hm & Hub & _).
  exists m. split; [done|]. clear Hne.
  revert s m Hm Hub. induction users as [|user users IH]; intros s m Hm Hub.
  { done. }
  assert (Hne : s ≠ ∅).
  { intros ->. by rewrite dom_empty_L in Hm. }
  destruct (create_user_nonempty s user Hne) as (m' & Hm' & Hub' & Hc).
  assert (m' = m) as -> by (specialize (Hub _ Hm'); specialize (Hub' _ Hm); lia).
  simpl created_ids. rewrite Hc. simpl dict_get. cbv iota beta.
  rewrite (IH _ (m + 1)).
  - rewrite (seqZ_cons (m + 1) (Z.of_nat (length (user :: users)))).
    + f_equal. f_equal; simpl length; lia.
    + simpl length. lia.
  - rewrite dom_insert_L. apply elem_of_union_l. by apply elem_of_singleton.
  - intros k. rewrite dom_insert_L.
    intros [->%elem_of_singleton|Hk]%elem_of_union; [lia|].
    specialize (Hub _ Hk). lia.
Qed.

Lemma created_ids_consecutive_witness :
  library ≠ ∅ ∧
  ∃ m : Z,
    (m ∈ dom library ∧ ∀ k, k ∈ dom library → k ≤ m) ∧
    created_ids [bob; anonymous; bob] library =
      seqZ (m + 1) (Z.of_nat (length [bob; anonymous; bob])).
Proof.
  assert (Hne : library ≠ ∅).
  { intros H. apply (f_equal (lookup 111)) in H. vm_compute in H. discriminate. }
  split; [exact Hne | exact (created_ids_consecutive [bob; anonymous; bob] library Hne)].
Defined.

(** ** Requests in sequence *)

Lemma serve_read_store (r : request) (s : gmap Z pydict) :
  ¬ is_POST r → (serve r s).2 = s.
Proof.
  destruct r as [|userid|user]; intros Hr.
  - done.
  - unfold serve, route, get_user, mbind, handler_bind, library_get.
    by destruct (s !! userid) as [[|kv d]|].
  - by destruct Hr.
Qed.

Lemma serve_create_nonempty (user : UserIn) (s : gmap Z pydict) :
  s ≠ ∅ →
  ∃ m : Z,
    m ∈ dom s ∧ (∀ k, k ∈ dom s → k ≤ m) ∧
    serve (POST_user user) s =
      (mkResponse 200 (Json (("id", PyInt (m + 1)) :: UserIn_dict user)),
       <[m + 1 := UserIn_dict user]> s).
Proof.
  intros Hne. destruct (create_user_nonempty s user Hne) as (m & Hm & Hub & Hc).
  exists m. split_and!; try done. unfold serve, route. by rewrite Hc.
Qed.

Lemma run_keeps_records (rs : list request) (s : gmap Z pydict) (k : Z) (d : pydict) :
  s !! k = Some d → run rs s !! k = Some d.
Proof.
  revert s. induction rs as [|r rs IH]; intros s Hk; simpl; [done|].
  by apply IH, serve_keeps_records.
Qed.

Lemma get_user_lookup (s s' : gmap Z pydict) (k : Z) :
  s !! k = s' !! k → (get_user k s).1 = (get_user k s').1.
Proof.
  intros H. unfold get_user, mbind, handler_bind, library_get. rewrite H.
  by destruct (s' !! k) as [[|kv d]|].
Qed.

(** X1. A request is answered [500] exactly when it is a create served on
    an empty store; the store is then left empty and the body is the plain
    text of the unhandled [ValueError]. *)
Theorem server_error_iff (r : request) (s : gmap Z pydict) :
  (status (serve r s).1 = 500 ↔ (∃ user : UserIn, r = POST_user user) ∧ s = ∅) ∧
  (status (serve r s).1 = 500 →
   serve r s = (mkResponse 500 (Text "Internal Server Error"), ∅)).
Proof.
  assert (H500 : status (serve r s).1 = 500 →
                 (∃ user : UserIn, r = POST_user user) ∧ s = ∅).
  { destruct r as [|userid|user].
    - simpl. lia.
    - unfold serve, route, get_user, mbind, handler_bind, library_get.
      destruct (s !! userid) as [[|kv d]|]; simpl; lia.
    - destruct (decide (s = ∅)) as [->|Hne]; [eauto|].
      destruct (serve_create_nonempty user s Hne) as (m & _ & _ & ->).
      simpl. lia. }
  split; [split|].
  - exact H500.
  - by intros [[user ->] ->].
  - intros [[user ->] ->]%H500. reflexivity.
Qed.

(** X4. From a non-empty store, every create of a request sequence adds
    exactly one record and nothing else changes the number of records: the
    store ends with as many records more as the sequence has creates. *)
Theorem run_size (rs : list request) (s : gmap Z pydict) :
  s ≠ ∅ → size (run rs s) = (size s + count_POST rs)%nat.
Proof.
  revert s. induction rs as [|r rs IH]; intros s Hne; simpl.
  { unfold count_POST. simpl. lia. }
  unfold count_POST. rewrite filter_cons.
  destruct (decide (is_POST r)) as [Hr|Hr].
  - destruct r as [| |user]; try by destruct Hr.
    destruct (serve_create_nonempty user s Hne) as (m & _ & Hub & ->). simpl.
    rewrite IH by apply insert_non_empty.
    rewrite map_size_insert_None.
    + unfold count_POST. lia.
    + apply not_elem_of_dom. intros Hd. specialize (Hub _ Hd). lia.
  - rewrite (serve_read_store r s Hr). by apply IH.
Qed.

Lemma run_size_witness :
  library ≠ ∅ ∧
  size (run [POST_user bob; GET_user 7; POST_user anonymous; GET_root] library) =
    (size library + count_POST [POST_user bob; GET_user 7; POST_user anonymous; GET_root])%nat.
Proof.
  assert (Hne : library ≠ ∅).
  { intros H. apply (f_equal (lookup 111)) in H. vm_compute in H. discriminate. }
  split; [exact Hne | exact (run_size _ library Hne)].
Defined.

(** X5. A record, once in the store, stays under its id with the same
    content through any later requests, and get-by-id for that id keeps
    giving the same response. *)
Theorem records_persist (rs : list request) (s : gmap Z pydict) (k : Z) (d : pydict) :
  s !! k = Some d →
  run rs s !! k = Some d ∧
  (serve (GET_user k) (run rs s)).1 = (serve (GET_user k) s).1.
Proof.
  intros Hk. pose proof (run_keeps_records rs s k d Hk) as Hk'.
  split; [done|].
  assert (Hg : (get_user k (run rs s)).1 = (get_user k s).1).
  { apply get_user_lookup. by rewrite Hk, Hk'. }
  unfold serve, route.
  destruct (get_user k (run rs s)), (get_user k s). simpl in *. by subst.
Qed.

Lemma records_persist_witness :
  library !! 111 = Some alice ∧
  run [POST_user bob; GET_user 7; POST_user anonymous] library !! 111 = Some alice ∧
  (serve (GET_user 111) (run [POST_user bob; GET_user 7; POST_user anonymous] library)).1 =
    (serve (GET_user 111) library).1.
Proof.
  assert (Hk : library !! 111 = Some alice) by (vm_compute; reflexivity).
  split; [exact Hk | exact (records_persist _ library 111 alice Hk)].
Defined.

(** X6. On any store, [get_user] returns a dictionary exactly when the id
    is bound to a dictionary with at least one item, and it returns that
    dictionary; it raises the 404 [HTTPException] when the id is unbound
    and also when it is bound to an empty dictionary. *)
Theorem get_user_result (s : gmap Z pydict) (userid : Z) :
  (∀ d : pydict,
     get_user userid s = (Ok d, s) ↔ s !! userid = Some d ∧ d ≠ []) ∧
  (get_user userid s = (Raise (HTTPException 404 "User not found"), s) ↔
     s !! userid = None ∨ s !! userid = Some []).
Proof.
  unfold get_user, mbind, handler_bind, library_get.
  destruct (s !! userid) as [[|kv d']|]; simpl; split.
  - intros d. split; [done|]. by intros [[= <-] Hd].
  - split; auto.
  - intros d. split.
    + by intros [= <-].
    + by intros [[= <-] _].
  - split; [done|]. by intros [|].
  - intros d. split; [done|]. by intros [].
  - split; auto.
Qed.

(** X7. Health checks and get-by-id requests can be dropped from any
    request sequence without changing the store it leads to: the final
    store is that of the creates alone, in the same order. *)
Theorem run_creates_only (rs : list request) (s : gmap Z pydict) :
  run rs s = run (filter (λ r, is_POST r) rs) s.
Proof.
  revert s. induction rs as [|r rs IH]; intros s; simpl; [done|].
  rewrite filter_cons. destruct (decide (is_POST r)) as [Hr|Hr].
  - simpl. apply IH.
  - rewrite (serve_read_store r s Hr). apply IH.
Qed.

Lemma run_interval (rs : list request) (s : gmap Z pydict) (lo hi : Z) :
  lo ≤ hi → (∀ k, k ∈ dom s ↔ (lo ≤ k ≤ hi)) →
  ∀ k, k ∈ dom (run rs s) ↔ (lo ≤ k ≤ hi + Z.of_nat (count_POST rs)).
Proof.
  revert s hi. induction rs as [|r rs IH]; intros s hi Hle Hdom k; simpl.
  { rewrite Hdom. unfold count_POST. simpl. lia. }
  unfold count_POST. rewrite filter_cons.
  destruct (decide (is_POST r)) as [Hr|Hr].
  - destruct r as [| |user]; try by destruct Hr.
    assert (Hne : s ≠ ∅).
    { intros ->. assert (hi ∈ dom (∅ : gmap Z pydict)) as Hin by (apply Hdom; lia).
      by rewrite dom_empty_L in Hin. }
    destruct (serve_create_nonempty user s Hne) as (m & Hm & Hub & ->). simpl.
    assert (m = hi) as ->.
    { apply Hdom in Hm. assert (hi ≤ m) by (apply Hub, Hdom; lia). lia. }
    rewrite (IH _ (hi + 1)).
    + unfold count_POST. lia.
    + lia.
    + intros j. rewrite dom_insert_L, elem_of_union, elem_of_singleton, Hdom. lia.
  - rewrite (serve_read_store r s Hr). by apply IH.
Qed.

(** X8. After any request sequence from the seeded store, the ids in the
    store are exactly the integers from 111 up to 111 plus the number of
    creates served: ids are handed out without gaps and none is dropped. *)
Theorem library_ids_interval (rs : list request) (k : Z) :
  k ∈ dom (run rs library) ↔ (111 ≤ k ≤ 111 + Z.of_nat (count_POST rs)).
Proof.
  apply (run_interval rs library 111 111); [lia|].
  intros j. unfold library. rewrite dom_singleton_L, elem_of_singleton. lia.
Qed.

(** X9. For every payload, a create on a non-empty store followed by any
    further requests can be fetched back: get-by-id with the returned id,
    which was not a key before, returns exactly the three fields of the
    payload. *)
Theorem create_then_get (user : UserIn) (rs : list request) (s : gmap Z pydict) :
  s ≠ ∅ →
  ∃ (new_id : Z) (s' : gmap Z pydict),
    create_user user s =
      (Ok [("id", PyInt new_id); ("name", PyStr (name user));
           ("date", PyStr (date user)); ("service", PyStr (service user))], s') ∧
    (new_id ∉ dom s) ∧
    get_user new_id (run rs s') =
      (Ok [("name", PyStr (name user)); ("date", PyStr (date user));
           ("service", PyStr (service user))], run rs s').
Proof.
  intros Hne. destruct (create_user_nonempty s user Hne) as (m & _ & Hub & Hc).
  exists (m + 1), (<[m + 1 := UserIn_dict user]> s). split_and!.
  - done.
  - intros Hd. specialize (Hub _ Hd). lia.
  - apply (get_user_present _ _ (UserIn_dict user)); [|done].
    apply run_keeps_records, lookup_insert_eq.
Qed.

Lemma create_then_get_witness :
  library ≠ ∅ ∧
  ∃ (new_id : Z) (s' : gmap Z pydict),
    create_user anonymous library =
      (Ok [("id", PyInt new_id); ("name", PyStr (name anonymous));
           ("date", PyStr (date anonymous));
           ("service", PyStr (service anonymous))], s') ∧
    (new_id ∉ dom library) ∧
    get_user new_id (run [POST_user bob; GET_root] s') =
      (Ok [("name", PyStr (name anonymous)); ("date", PyStr (date anonymous));
           ("service", PyStr (service anonymous))],
       run [POST_user bob; GET_root] s').
Proof.
  assert (Hne : library ≠ ∅).
  { intros H. apply (f_equal (lookup 111)) in H. vm_compute in H. discriminate. }
  split; [exact Hne | exact (create_then_get anonymous [POST_user bob; GET_root] library Hne)].
Defined.
